(** * Radarr API adapter (server/api/radarr.ts)

    A shallow embedding of the [RadarrAPI] class: the adapter's methods are
    written as computations in a small state-and-exception monad over a
    world that records every HTTP request handed to the transport, every
    logger call, the response cache and the clock.  The transport (the
    Radarr server behind axios) is a parameter of the development, so each
    theorem holds for every possible behaviour of the external service. *)

From stdpp Require Import gmap strings list pretty.

Set Warnings "-register-all".

Open Scope string_scope.
Open Scope Z_scope.

(** ** JavaScript values

    Response bodies are whatever JSON the service sent: the TypeScript
    interfaces ([RadarrMovie], [QueueResponse], ...) are erased at run time,
    so the adapter's tests ([if (movie.id)], [if (!response.data[0])]) act on
    untyped values.  Numbers are the integers the service uses for ids,
    years and ports. *)

Inductive value : Type :=
| VUndefined
| VNull
| VBool (b : bool)
| VNum (n : Z)
| VStr (s : string)
| VArr (xs : list value)
| VObj (fields : list (string * value)).

(** [ToBoolean]: what [if (v)] and [!v] test. *)
Definition to_boolean (v : value) : bool :=
  match v with
  | VUndefined | VNull => false
  | VBool b => b
  | VNum n => negb (n =? 0)
  | VStr s => negb (String.eqb s "")
  | VArr _ | VObj _ => true
  end.

(** Thrown values.  [Error] is [new Error(message)]; [TypeError] is what a
    property read on [undefined] or [null] raises; [AxiosError] is a
    rejected request, which may carry the body of the failing response
    ([e.response.data]). *)
Inductive exn : Type :=
| Error (message : string)
| TypeError (message : string)
| AxiosError (message : string) (response_data : option value).

Definition message (e : exn) : string :=
  match e with
  | Error m | TypeError m | AxiosError m _ => m
  end.

(** [e?.response?.data] *)
Definition response_data_of (e : exn) : value :=
  match e with
  | AxiosError _ (Some d) => d
  | _ => VUndefined
  end.

Definition Result (A : Type) : Type := exn + A.

(** Own properties of an object, first binding of a key wins. *)
Fixpoint assoc (k : string) (fields : list (string * value)) : option value :=
  match fields with
  | [] => None
  | (k', v) :: rest => if String.eqb k k' then Some v else assoc k rest
  end.

Definition type_name (v : value) : string :=
  match v with
  | VNull => "null"
  | _ => "undefined"
  end.

Definition cannot_read (k : string) (v : value) : exn :=
  TypeError ("Cannot read properties of " +:+ type_name v
             +:+ " (reading '" +:+ k +:+ "')").

(** [v.k] for the named fields the adapter reads ([id], [monitored],
    [downloaded], [records]).  None of them is defined on a prototype, so
    on anything but an object holding the key the read gives [undefined];
    on [undefined] and [null] it throws. *)
Definition get_field (k : string) (v : value) : Result value :=
  match v with
  | VUndefined | VNull => inl (cannot_read k v)
  | VObj fields => inr (default VUndefined (assoc k fields))
  | _ => inr VUndefined
  end.

Fixpoint string_nth (i : nat) (s : string) : option string :=
  match s, i with
  | EmptyString, _ => None
  | String c _, O => Some (String c EmptyString)
  | String _ s', S i' => string_nth i' s'
  end.

(** [v[i]] for an array index [i]. *)
Definition get_index (i : nat) (v : value) : Result value :=
  match v with
  | VUndefined | VNull => inl (cannot_read (pretty i) v)
  | VArr xs => inr (default VUndefined (xs !! i))
  | VStr s => inr (from_option VStr VUndefined (string_nth i s))
  | VObj fields => inr (default VUndefined (assoc (pretty i) fields))
  | VBool _ | VNum _ => inr VUndefined
  end.

(** [n.toString()] and the interpolation of a number in a template. *)
Definition number_to_string (n : Z) : string := pretty n.

(** Writing [k: v] in an object literal: an existing key keeps its place
    and takes the new value, a new key goes last. *)
Fixpoint set_field (k : string) (v : value) (fields : list (string * value))
  : list (string * value) :=
  match fields with
  | [] => [(k, v)]
  | (k', v') :: rest =>
      if String.eqb k k' then (k, v) :: rest else (k', v') :: set_field k v rest
  end.

Fixpoint index_from (i : nat) (xs : list value) : list (string * value) :=
  match xs with
  | [] => []
  | x :: rest => (pretty i, x) :: index_from (S i) rest
  end.

Fixpoint chars_of (s : string) : list value :=
  match s with
  | EmptyString => []
  | String c s' => VStr (String c EmptyString) :: chars_of s'
  end.

(** [{...v}]: the own enumerable properties copied by a spread. *)
Definition spread (v : value) : list (string * value) :=
  match v with
  | VObj fields => fields
  | VArr xs => index_from 0 xs
  | VStr s => index_from 0 (chars_of s)
  | _ => []
  end.

Definition object_literal (base : list (string * value))
    (props : list (string * value)) : value :=
  VObj (foldl (fun acc kv => set_field kv.1 kv.2 acc) base props).

Definition of_option_bool (o : option bool) : value :=
  from_option VBool VUndefined o.

(** ** The world around the adapter *)

Inductive Method : Type := GET | PUT | POST.

(** A call [this.axios.get(path, {params})], [this.axios.put(path, data)] or
    [this.axios.post(path, data)].  The base URL and the [apikey] parameter
    were fixed when the instance was built and are part of the transport. *)
Record Request : Type := mkRequest {
  method : Method;
  path : string;
  params : list (string * string);
  data : option value
}.

Definition is_write (r : Request) : bool :=
  match method r with
  | GET => false
  | PUT | POST => true
  end.

Inductive Level : Type := LError | LInfo | LDebug.

Record LogEntry : Type := mkLog {
  level : Level;
  text : string;
  meta : list (string * value)
}.

(** A cache key: the path and the query parameters of the request. *)
Abbreviation CacheKey := (string * list (string * string))%type.

Record World : Type := mkWorld {
  requests : list Request;                (* oldest first *)
  logs : list LogEntry;                   (* oldest first *)
  cache : gmap CacheKey (value * Z);      (* key -> (value, expiry) *)
  now : Z                                 (* the clock, in seconds *)
}.

Definition add_request (r : Request) (w : World) : World :=
  mkWorld (requests w ++ [r]) (logs w) (cache w) (now w).

Definition add_log (l : LogEntry) (w : World) : World :=
  mkWorld (requests w) (logs w ++ [l]) (cache w) (now w).

Definition set_cache (k : CacheKey) (entry : value * Z) (w : World) : World :=
  mkWorld (requests w) (logs w) (<[k := entry]> (cache w)) (now w).

Definition writes (w : World) : list Request := filter is_write (requests w).

(** The configured axios instance together with the service behind it: the
    outcome of a request, which may depend on the requests made before it. *)
Definition Transport : Type := list Request -> Request -> Result value.

(** ** Computations: state over [World], exceptions as [exn] *)

Definition M (A : Type) : Type := World -> Result A * World.

#[global] Instance M_ret : MRet M := fun A a w => (inr a, w).

#[global] Instance M_bind : MBind M := fun A B k m w =>
  match m w with
  | (inr a, w') => k a w'
  | (inl e, w') => (inl e, w')
  end.

Definition throw {A} (e : exn) : M A := fun w => (inl e, w).

(** [try { m } catch (e) { h e }] *)
Definition try_catch {A} (m : M A) (h : exn -> M A) : M A := fun w =>
  match m w with
  | (inr a, w') => (inr a, w')
  | (inl e, w') => h e w'
  end.

Definition lift {A} (r : Result A) : M A := fun w => (r, w).

Definition field (k : string) (v : value) : M value := lift (get_field k v).
Definition index (i : nat) (v : value) : M value := lift (get_index i v).

Definition logger (lv : Level) (msg : string) (m : list (string * value)) : M unit :=
  fun w => (inr (), add_log (mkLog lv msg m) w).

(** ** Settings and request options *)

(** Modelled from the spec: the [RadarrSettings] type of [server/lib/settings]
    is not part of the sources at hand; these are the four fields that
    [buildRadarrUrl] reads, "scheme (TLS on/off), host, port, and an optional
    path prefix". *)
Record RadarrSettings : Type := mkSettings {
  useSsl : bool;
  hostname : string;
  port : Z;
  baseUrl : option string
}.

Record RadarrMovieOptions : Type := mkOptions {
  title : string;
  qualityProfileId : Z;
  minimumAvailability : string;
  profileId : Z;
  year : Z;
  rootFolderPath : string;
  tmdbId : Z;
  monitored : option bool;
  searchNow : option bool
}.

(** The options object as the logger receives it. *)
Definition options_value (o : RadarrMovieOptions) : value :=
  VObj [("title", VStr (title o));
        ("qualityProfileId", VNum (qualityProfileId o));
        ("minimumAvailability", VStr (minimumAvailability o));
        ("profileId", VNum (profileId o));
        ("year", VNum (year o));
        ("rootFolderPath", VStr (rootFolderPath o));
        ("tmdbId", VNum (tmdbId o));
        ("monitored", of_option_bool (monitored o));
        ("searchNow", of_option_bool (searchNow o))].

(** The properties that both the update and the create body spell out. *)
Definition requested_fields (o : RadarrMovieOptions) : list (string * value) :=
  [("title", VStr (title o));
   ("qualityProfileId", VNum (qualityProfileId o));
   ("profileId", VNum (profileId o));
   ("titleSlug", VStr (number_to_string (tmdbId o)));
   ("minimumAvailability", VStr (minimumAvailability o));
   ("tmdbId", VNum (tmdbId o));
   ("year", VNum (year o));
   ("rootFolderPath", VStr (rootFolderPath o));
   ("monitored", of_option_bool (monitored o));
   ("addOptions", VObj [("searchForMovie", of_option_bool (searchNow o))])].

(** [`${...}`] of an optional string: [undefined] prints as its name. *)
Definition interpolate (s : option string) : string := default "undefined" s.

Definition buildRadarrUrl (radarrSettings : RadarrSettings) (path : option string)
  : string :=
  (if useSsl radarrSettings then "https" else "http") +:+ "://"
  +:+ hostname radarrSettings +:+ ":"
  +:+ number_to_string (port radarrSettings)
  +:+ default "" (baseUrl radarrSettings)
  +:+ interpolate path.

(** [s.endsWith(suffix)]: some tail of [s] is [suffix]. *)
Fixpoint endsWith (s suffix : string) : bool :=
  String.eqb s suffix ||
  match s with
  | EmptyString => false
  | String _ s' => endsWith s' suffix
  end.

(** ** The requests the adapter makes *)

Definition movies_request : Request := mkRequest GET "/movie" [] None.

Definition movie_request (id : Z) : Request :=
  mkRequest GET ("/movie/" +:+ number_to_string id) [] None.

Definition lookup_request (id : Z) : Request :=
  mkRequest GET "/movie/lookup" [("term", "tmdb:" +:+ number_to_string id)] None.

Definition update_request (movie : value) (o : RadarrMovieOptions) : Request :=
  mkRequest PUT "/movie" []
    (Some (object_literal (spread movie) (requested_fields o))).

Definition create_request (o : RadarrMovieOptions) : Request :=
  mkRequest POST "/movie" [] (Some (object_literal [] (requested_fields o))).

Definition profiles_request : Request := mkRequest GET "/qualityProfile" [] None.
Definition queue_request : Request := mkRequest GET "/queue" [] None.

Definition radarr_label : list (string * value) := [("label", VStr "Radarr")].

Definition not_found : exn := Error "Movie not found".
Definition failed_to_add : exn := Error "Failed to add movie to Radarr".

(** ** The adapter *)

Section RadarrAPI.

Variable axios : Transport.

(** [await this.axios.<method>(...)] followed by [response.data]: the
    request is recorded, and the transport resolves with the body or
    rejects. *)
Definition send (r : Request) : M value := fun w =>
  (axios (requests w) r, add_request r w).

(** Modelled from the spec: [ExternalAPI.getRolling] lives in
    [server/api/externalapi], which is not part of the sources at hand.
    "Computes a cache key from path+params. If a live entry exists,
    returns it without a network call. Otherwise performs the request,
    stores the successful result under that key with the given TTL, and
    returns it"; a failed fetch leaves the cache as it was. *)
Definition getRolling (r : Request) (ttl : Z) : M value := fun w =>
  let key : CacheKey := (path r, params r) in
  let fetch :=
    match send r w with
    | (inr v, w') => (inr v, set_cache key (v, now w' + ttl) w')
    | (inl e, w') => (inl e, w')
    end in
  match cache w !! key with
  | Some (v, expiry) => if bool_decide (now w < expiry) then (inr v, w) else fetch
  | None => fetch
  end.

Definition getMovies : M value :=
  try_catch (send movies_request)
    (fun e => throw (Error ("[Radarr] Failed to retrieve movies: " +:+ message e))).

Definition getMovie (id : Z) : M value :=
  try_catch (send (movie_request id))
    (fun e => throw (Error ("[Radarr] Failed to retrieve movie: " +:+ message e))).

Definition getMovieByTmdbId (id : Z) : M value :=
  try_catch
    (response_data ← send (lookup_request id);
     first ← index 0 response_data;
     if negb (to_boolean first) then throw (Error "Movie not found")
     else index 0 response_data)
    (fun e =>
       logger LError "Error retrieving movie by TMDb ID"
         [("label", VStr "Radarr API"); ("message", VStr (message e))];;
       throw (Error "Movie not found")).

Definition addMovie (options : RadarrMovieOptions) : M value :=
  try_catch
    (movie ← getMovieByTmdbId (tmdbId options);
     downloaded ← field "downloaded" movie;
     if to_boolean downloaded then
       logger LInfo
         "Title already exists and is available. Skipping add and returning success"
         radarr_label;;
       mret movie
     else
       (* movie.id && !movie.monitored *)
       id ← field "id" movie;
       unmonitored ←
         (if to_boolean id then
            m ← field "monitored" movie; mret (negb (to_boolean m))
          else mret false);
       if (unmonitored : bool) then
         response_data ← send (update_request movie options);
         m ← field "monitored" response_data;
         if to_boolean m then
           logger LInfo
             "Found existing title in Radarr and set it to monitored. Returning success"
             radarr_label;;
           logger LDebug "Radarr update details"
             [("label", VStr "Radarr"); ("movie", response_data)];;
           mret response_data
         else
           logger LError "Failed to update existing movie in Radarr"
             [("label", VStr "Radarr"); ("options", options_value options)];;
           throw (Error "Failed to update existing movie in Radarr")
       else
         id ← field "id" movie;
         if to_boolean id then
           logger LInfo
             "Movie is already monitored in Radarr. Skipping add and returning success"
             radarr_label;;
           mret movie
         else
           response_data ← send (create_request options);
           id ← field "id" response_data;
           (if to_boolean id then
              logger LInfo "Radarr accepted request" radarr_label;;
              logger LDebug "Radarr add details"
                [("label", VStr "Radarr"); ("movie", response_data)]
            else
              logger LError "Failed to add movie to Radarr"
                [("label", VStr "Radarr"); ("options", options_value options)];;
              throw (Error "Failed to add movie to Radarr"));;
           mret response_data)
    (fun e =>
       logger LError
         "Failed to add movie to Radarr. This might happen if the movie already exists, in which case you can safely ignore this error."
         [("label", VStr "Radarr");
          ("errorMessage", VStr (message e));
          ("options", options_value options);
          ("response", response_data_of e)];;
       throw (Error "Failed to add movie to Radarr")).

Definition getProfiles : M value :=
  try_catch (getRolling profiles_request 3600)
    (fun e => throw (Error ("[Radarr] Failed to retrieve profiles: " +:+ message e))).


Definition getQueue : M value :=
  try_catch
    (response_data ← send queue_request;
     field "records" response_data)
    (fun e => throw (Error ("[Radarr] Failed to retrieve queue: " +:+ message e))).

End RadarrAPI.

(** [v.k] is truthy (and the read does not throw). *)
Definition flag (k : string) (v : value) : bool :=
  match get_field k v with
  | inr x => to_boolean x
  | inl _ => false
  end.

(** The queue envelope, [QueueResponse], and its JSON form. *)
Record QueueResponse : Type := mkQueue {
  page : Z;
  pageSize : Z;
  sortKey : string;
  sortDirection : string;
  totalRecords : Z;
  records : list value
}.

Definition queue_value (q : QueueResponse) : value :=
  VObj [("page", VNum (page q));
        ("pageSize", VNum (pageSize q));
        ("sortKey", VStr (sortKey q));
        ("sortDirection", VStr (sortDirection q));
        ("totalRecords", VNum (totalRecords q));
        ("records", VArr (records q))].

Definition lookup_log (e : exn) : LogEntry :=
  mkLog LError "Error retrieving movie by TMDb ID"
    [("label", VStr "Radarr API"); ("message", VStr (message e))].

Definition add_failure_log (o : RadarrMovieOptions) (e : exn) : LogEntry :=
  mkLog LError
    "Failed to add movie to Radarr. This might happen if the movie already exists, in which case you can safely ignore this error."
    [("label", VStr "Radarr");
     ("errorMessage", VStr (message e));
     ("options", options_value o);
     ("response", response_data_of e)].

(** What a caller and the service see of a call: its result and the
    requests made so far. *)
Definition outcome {A} (r : Result A * World) : Result A * list Request :=
  (r.1, requests r.2).

Definition profiles_key : CacheKey := ("/qualityProfile", []).

(** ** Sample services

    Concrete transports and records on which the statements below are
    exercised. *)

Definition movie_record (id : Z) (downloaded monitored : bool) : value :=
  VObj [("id", VNum id);
        ("tmdbId", VNum 603);
        ("downloaded", VBool downloaded);
        ("monitored", VBool monitored)].

(** A service that answers every GET with [read] and every PUT or POST
    with [written]. *)
Definition serve (read written : Result value) : Transport :=
  fun _ r => if is_write r then written else read.

Definition matrix_options : RadarrMovieOptions :=
  mkOptions "The Matrix" 4 "released" 4 1999 "/movies" 603 (Some true) (Some true).

Definition fresh_world : World := mkWorld [] [] ∅ 0.

Definition at_time (t : Z) (w : World) : World :=
  mkWorld (requests w) (logs w) (cache w) t.

Definition sample_profiles : value :=
  VArr [VObj [("id", VNum 1); ("name", VStr "Any")];
        VObj [("id", VNum 4); ("name", VStr "HD-1080p")]].

Definition sample_queue : QueueResponse :=
  mkQueue 1 10 "timeleft" "ascending" 1
    [VObj [("movieId", VNum 42); ("status", VStr "downloading")]].

Definition sample_settings : RadarrSettings :=
  mkSettings false "localhost" 7878 (Some "/radarr").

Definition server_error : Result value :=
  inl (AxiosError "Request failed with status code 500" None).

(** Already in the library with its file, though no longer monitored. *)
Definition downloaded_unmonitored : value := movie_record 7 true false.
Definition downloaded_service : Transport :=
  serve (inr (VArr [downloaded_unmonitored])) (inr (movie_record 7 true true)).

(** Known to the service, monitored and waiting for a release. *)
Definition monitored_movie : value := movie_record 7 false true.
Definition monitored_service : Transport :=
  serve (inr (VArr [monitored_movie])) server_error.

(** Known to the service but unmonitored; the update goes through. *)
Definition unmonitored_movie : value := movie_record 7 false false.
Definition updating_service : Transport :=
  serve (inr (VArr [unmonitored_movie])) (inr (movie_record 7 false true)).

(** The same, with a service that answers 2xx and leaves the record as it was. *)
Definition ignoring_service : Transport :=
  serve (inr (VArr [unmonitored_movie])) (inr unmonitored_movie).

(** Not in the library yet: the lookup gives the catalogue entry with id 0. *)
Definition catalogue_entry : value := movie_record 0 false false.
Definition created_movie : value := movie_record 42 false true.
Definition creating_service : Transport :=
  serve (inr (VArr [catalogue_entry])) (inr created_movie).

(** The create is answered 2xx with a record that has no id. *)
Definition empty_created_service : Transport :=
  serve (inr (VArr [catalogue_entry])) (inr (VObj [("title", VStr "The Matrix")])).

(** The lookup finds nothing; the lookup cannot be reached. *)
Definition empty_service : Transport := serve (inr (VArr [])) server_error.
Definition failing_service : Transport := serve server_error server_error.

Definition profiles_service : Transport := serve (inr sample_profiles) server_error.
Definition queue_service : Transport :=
  serve (inr (queue_value sample_queue)) server_error.

(** The service refuses the create because the movie is already there. *)
Definition conflict_error : exn :=
  AxiosError "Request failed with status code 400"
    (Some (VObj [("message", VStr "This movie has already been added")])).
Definition conflicting_service : Transport :=
  serve (inr (VArr [catalogue_entry])) (inl conflict_error).

(** Queue answers that are no envelope. *)
Definition bare_queue_service : Transport :=
  serve (inr (VObj [("page", VNum 1)])) server_error.
Definition text_queue_service : Transport :=
  serve (inr (VStr "<html></html>")) server_error.
Definition null_queue_service : Transport := serve (inr VNull) server_error.

(** The world at second 1000, and the world a first [getProfiles] call
    leaves behind. *)
Definition profiles_start : World := at_time 1000 fresh_world.
Definition profiles_fetched : World :=
  set_cache profiles_key (sample_profiles, 4600)
    (add_request profiles_request profiles_start).

(** A computation that leaves the response cache and the clock alone:
    all it may do to the world is send requests and write to the log. *)
Definition quiet {A} (m : M A) : Prop :=
  forall w, cache (m w).2 = cache w /\ now (m w).2 = now w.

(** [s.startsWith(p)] *)
Fixpoint startsWith (s p : string) {struct p} : bool :=
  match p with
  | EmptyString => true
  | String a p' =>
      match s with
      | EmptyString => false
      | String b s' => Ascii.eqb a b && startsWith s' p'
      end
  end.

(** A computation that, on every call, sends the request [r] and nothing
    else, and leaves the cache and the clock alone. *)
Definition sends_only {A} (r : Request) (m : M A) : Prop :=
  forall w,
    requests (m w).2 = (requests w ++ [r])%list /\
    cache (m w).2 = cache w /\
    now (m w).2 = now w.

(** A computation whose result and requests are decided by the requests
    made so far and by the service alone: the cache, the clock and the log
    have no part in them. *)
Definition blind {A} (m : M A) : Prop :=
  forall w w',
    requests w = requests w' ->
    (m w).1 = (m w').1 /\ requests (m w).2 = requests (m w').2.

(** ** Properties *)

Section Properties.

Variable axios : Transport.

Lemma bind_run {A B} (m : M A) (k : A -> M B) (w : World) :
  (m ≫= k) w =
  match m w with
  | (inr a, w') => k a w'
  | (inl e, w') => (inl e, w')
  end.
Proof. reflexivity. Qed.

Lemma truthy_get_field (k : string) (v : value) :
  to_boolean v = true -> exists x, get_field k v = inr x.
Proof. destruct v; simpl; try discriminate; eauto. Qed.

(** What the lookup does, spelled out on the transport's answer. *)
Lemma getMovieByTmdbId_run (id : Z) (w : World) :
  getMovieByTmdbId axios id w =
  let w1 := add_request (lookup_request id) w in
  match axios (requests w) (lookup_request id) with
  | inr response_data =>
      match get_index 0 response_data with
      | inr first =>
          if to_boolean first then (inr first, w1)
          else (inl not_found, add_log (lookup_log not_found) w1)
      | inl e => (inl not_found, add_log (lookup_log e) w1)
      end
  | inl e => (inl not_found, add_log (lookup_log e) w1)
  end.
Proof.
  unfold getMovieByTmdbId, try_catch. rewrite bind_run. unfold send at 1.
  destruct (axios (requests w) (lookup_request id)) as [e | d]; [reflexivity |].
  rewrite bind_run. unfold index, lift.
  destruct (get_index 0 d) as [e | first]; [reflexivity |].
  destruct (to_boolean first); reflexivity.
Qed.

Lemma getMovieByTmdbId_ok (id : Z) (w w1 : World) (movie : value) :
  getMovieByTmdbId axios id w = (inr movie, w1) ->
  to_boolean movie = true /\ w1 = add_request (lookup_request id) w.
Proof.
  rewrite getMovieByTmdbId_run. cbv zeta.
  destruct (axios _ _) as [e | d]; [discriminate |].
  destruct (get_index 0 d) as [e | first]; [discriminate |].
  destruct (to_boolean first) eqn:Ht; [| discriminate].
  intros [= <- <-]. auto.
Qed.

Lemma getMovieByTmdbId_err (id : Z) (w w1 : World) (e : exn) :
  getMovieByTmdbId axios id w = (inl e, w1) ->
  e = not_found /\
  exists cause, w1 = add_log (lookup_log cause) (add_request (lookup_request id) w).
Proof.
  rewrite getMovieByTmdbId_run. cbv zeta.
  destruct (axios _ _) as [e0 | d].
  - intros [= <- <-]. eauto.
  - destruct (get_index 0 d) as [e0 | first].
    + intros [= <- <-]. eauto.
    + destruct (to_boolean first); [discriminate |]. intros [= <- <-]. eauto.
Qed.

Lemma flag_get_field (k : string) (v : value) :
  to_boolean v = true ->
  exists x, get_field k v = inr x /\ to_boolean x = flag k v.
Proof.
  intros Hv. destruct (truthy_get_field k v Hv) as [x Hx].
  exists x. unfold flag. rewrite Hx. auto.
Qed.

(** Stepping through [addMovie] once the lookup has resolved: every
    field read on the resolved movie succeeds, and its truth value is the
    movie's flag. *)
Ltac read_fields Hm :=
  repeat match goal with
  | |- context [get_field ?k ?v] =>
      let x := fresh "x" in
      let Hx := fresh "Hx" in
      let Hf := fresh "Hf" in
      destruct (flag_get_field k v Hm) as (x & Hx & Hf);
      rewrite Hx; clear Hx
  end.

Ltac run_binds :=
  repeat (cbv beta iota delta [mbind M_bind mret M_ret negb];
          match goal with
          | Hf : to_boolean ?x = _ |- context [to_boolean ?x] => rewrite Hf
          end);
  cbv beta iota delta [mbind M_bind mret M_ret negb].

Ltac enter_addMovie H Hm :=
  unfold addMovie, try_catch; rewrite bind_run, H;
  unfold field, lift, logger, throw, send;
  read_fields Hm.

Lemma addMovie_downloaded_run (o : RadarrMovieOptions) (w w1 : World)
    (movie : value) :
  getMovieByTmdbId axios (tmdbId o) w = (inr movie, w1) ->
  flag "downloaded" movie = true ->
  addMovie axios o w =
  (inr movie,
   add_log (mkLog LInfo
     "Title already exists and is available. Skipping add and returning success"
     radarr_label) w1).
Proof.
  intros H Hd. destruct (getMovieByTmdbId_ok _ _ _ _ H) as [Hm _].
  enter_addMovie H Hm. rewrite Hd in *. run_binds. reflexivity.
Qed.

Lemma addMovie_monitored_run (o : RadarrMovieOptions) (w w1 : World)
    (movie : value) :
  getMovieByTmdbId axios (tmdbId o) w = (inr movie, w1) ->
  flag "downloaded" movie = false ->
  flag "id" movie = true ->
  flag "monitored" movie = true ->
  addMovie axios o w =
  (inr movie,
   add_log (mkLog LInfo
     "Movie is already monitored in Radarr. Skipping add and returning success"
     radarr_label) w1).
Proof.
  intros H Hd Hi Hmon. destruct (getMovieByTmdbId_ok _ _ _ _ H) as [Hm _].
  enter_addMovie H Hm. rewrite Hd, Hi, Hmon in *. run_binds. reflexivity.
Qed.

Lemma addMovie_update_run (o : RadarrMovieOptions) (w w1 : World)
    (movie : value) :
  getMovieByTmdbId axios (tmdbId o) w = (inr movie, w1) ->
  flag "downloaded" movie = false ->
  flag "id" movie = true ->
  flag "monitored" movie = false ->
  outcome (addMovie axios o w) =
  (match axios (requests w1) (update_request movie o) with
   | inr response_data =>
       if flag "monitored" response_data then inr response_data
       else inl failed_to_add
   | inl _ => inl failed_to_add
   end,
   (requests w1 ++ [update_request movie o])%list).
Proof.
  intros H Hd Hi Hmon. destruct (getMovieByTmdbId_ok _ _ _ _ H) as [Hm _].
  enter_addMovie H Hm. rewrite Hd, Hi, Hmon in *. run_binds.
  destruct (axios (requests w1) (update_request movie o)) as [e | d];
    [reflexivity |].
  unfold flag. destruct (get_field "monitored" d) as [e | m]; [reflexivity |].
  destruct (to_boolean m); reflexivity.
Qed.

Lemma addMovie_create_run (o : RadarrMovieOptions) (w w1 : World)
    (movie : value) :
  getMovieByTmdbId axios (tmdbId o) w = (inr movie, w1) ->
  flag "downloaded" movie = false ->
  flag "id" movie = false ->
  outcome (addMovie axios o w) =
  (match axios (requests w1) (create_request o) with
   | inr response_data =>
       if flag "id" response_data then inr response_data
       else inl failed_to_add
   | inl _ => inl failed_to_add
   end,
   (requests w1 ++ [create_request o])%list).
Proof.
  intros H Hd Hi. destruct (getMovieByTmdbId_ok _ _ _ _ H) as [Hm _].
  enter_addMovie H Hm. rewrite Hd, Hi in *. run_binds.
  destruct (axios (requests w1) (create_request o)) as [e | d];
    [reflexivity |].
  unfold flag. destruct (get_field "id" d) as [e | i]; [reflexivity |].
  destruct (to_boolean i); reflexivity.
Qed.

Lemma addMovie_not_found_run (o : RadarrMovieOptions) (w w1 : World) (e : exn) :
  getMovieByTmdbId axios (tmdbId o) w = (inl e, w1) ->
  addMovie axios o w =
  (inl failed_to_add, add_log (add_failure_log o not_found) w1).
Proof.
  intros H. destruct (getMovieByTmdbId_err _ _ _ _ H) as [-> _].
  unfold addMovie, try_catch. rewrite bind_run, H. reflexivity.
Qed.

Lemma writes_add_read (r : Request) (w : World) :
  is_write r = false -> writes (add_request r w) = writes w.
Proof.
  intros Hr. unfold writes, add_request. simpl.
  rewrite filter_app, filter_cons_False, filter_nil, app_nil_r; [done |].
  rewrite Hr. auto.
Qed.

Lemma writes_add_log (l : LogEntry) (w : World) :
  writes (add_log l w) = writes w.
Proof. reflexivity. Qed.

(** C3.  Whenever the item resolved by the external-id lookup is marked
    downloaded, [addMovie] returns that very item, the only request it
    has made is the lookup GET, and no PUT or POST was issued. *)
Theorem addMovie_downloaded_is_noop (o : RadarrMovieOptions) (w w1 : World)
    (movie : value) :
  getMovieByTmdbId axios (tmdbId o) w = (inr movie, w1) ->
  flag "downloaded" movie = true ->
  (addMovie axios o w).1 = inr movie /\
  requests (addMovie axios o w).2 = (requests w ++ [lookup_request (tmdbId o)])%list /\
  writes (addMovie axios o w).2 = writes w.
Proof.
  intros H Hd. rewrite (addMovie_downloaded_run _ _ _ _ H Hd).
  destruct (getMovieByTmdbId_ok _ _ _ _ H) as [_ ->].
  cbn [fst snd]. split_and!; [done | done |].
  rewrite writes_add_log. by apply writes_add_read.
Qed.

(** C4.  Whenever the resolved item exists in the service (truthy
    internal id), is not downloaded and is already monitored, [addMovie]
    returns that very item, the only request it has made is the lookup
    GET, and no PUT or POST was issued. *)
Theorem addMovie_monitored_is_noop (o : RadarrMovieOptions) (w w1 : World)
    (movie : value) :
  getMovieByTmdbId axios (tmdbId o) w = (inr movie, w1) ->
  flag "id" movie = true ->
  flag "downloaded" movie = false ->
  flag "monitored" movie = true ->
  (addMovie axios o w).1 = inr movie /\
  requests (addMovie axios o w).2 = (requests w ++ [lookup_request (tmdbId o)])%list /\
  writes (addMovie axios o w).2 = writes w.
Proof.
  intros H Hi Hd Hmon. rewrite (addMovie_monitored_run _ _ _ _ H Hd Hi Hmon).
  destruct (getMovieByTmdbId_ok _ _ _ _ H) as [_ ->].
  cbn [fst snd]. split_and!; [done | done |].
  rewrite writes_add_log. by apply writes_add_read.
Qed.

Lemma outcome_inv {A} (r : Result A * World) (x : Result A) (rs : list Request) :
  outcome r = (x, rs) -> r.1 = x /\ requests r.2 = rs.
Proof. unfold outcome. intros [= <- <-]. auto. Qed.

(** C1, as amended.  Whenever the resolved item exists in the service
    (truthy internal id), is not monitored and is not marked downloaded,
    [addMovie] issues the update PUT right after the lookup; the call
    returns a record exactly when the PUT resolved with a record whose
    [monitored] flag is truthy, and that record is the one returned; a
    resolved PUT whose record is still unmonitored makes the call fail
    with the adapter's error. *)
Theorem addMovie_update_checks_monitored (o : RadarrMovieOptions)
    (w w1 : World) (movie : value) :
  getMovieByTmdbId axios (tmdbId o) w = (inr movie, w1) ->
  flag "id" movie = true ->
  flag "monitored" movie = false ->
  flag "downloaded" movie = false ->
  requests (addMovie axios o w).2 =
    (requests w ++ [lookup_request (tmdbId o); update_request movie o])%list /\
  (forall updated,
      (addMovie axios o w).1 = inr updated <->
      axios (requests w1) (update_request movie o) = inr updated /\
      flag "monitored" updated = true) /\
  (forall updated,
      axios (requests w1) (update_request movie o) = inr updated ->
      flag "monitored" updated = false ->
      (addMovie axios o w).1 = inl failed_to_add).
Proof.
  intros H Hi Hmon Hd.
  destruct (outcome_inv _ _ _ (addMovie_update_run _ _ _ _ H Hd Hi Hmon))
    as [Hres Hreq].
  destruct (getMovieByTmdbId_ok _ _ _ _ H) as [_ Hw1].
  split_and!.
  - rewrite Hreq, Hw1. unfold add_request. simpl. by rewrite <- app_assoc.
  - intros updated. rewrite Hres.
    destruct (axios (requests w1) (update_request movie o)) as [e | d].
    + split; [discriminate | intros [[=] _]].
    + destruct (flag "monitored" d) eqn:Hfl.
      * split; [intros [= <-]; auto | intros [[= <-] _]; auto].
      * split; [discriminate | intros [[= <-] Hu]; congruence].
  - intros updated Hput Hfl. by rewrite Hres, Hput, Hfl.
Qed.

Lemma addMovie_create_checks_id_aux (o : RadarrMovieOptions) (w w1 : World)
    (movie : value) :
  getMovieByTmdbId axios (tmdbId o) w = (inr movie, w1) ->
  flag "id" movie = false ->
  flag "downloaded" movie = false ->
  (addMovie axios o w).1 =
    match axios (requests w1) (create_request o) with
    | inr response_data =>
        if flag "id" response_data then inr response_data else inl failed_to_add
    | inl _ => inl failed_to_add
    end /\
  requests (addMovie axios o w).2 =
    (requests w ++ [lookup_request (tmdbId o); create_request o])%list.
Proof.
  intros H Hi Hd.
  destruct (outcome_inv _ _ _ (addMovie_create_run _ _ _ _ H Hd Hi))
    as [Hres Hreq].
  destruct (getMovieByTmdbId_ok _ _ _ _ H) as [_ Hw1].
  split; [done |].
  rewrite Hreq, Hw1. unfold add_request. simpl. by rewrite <- app_assoc.
Qed.

(** C2.  Whenever the lookup shows the item is absent from the service
    (the resolved record carries no truthy internal id and is not marked
    downloaded, which would make it an item the service already has),
    [addMovie] issues the create POST right after the lookup; the call
    returns a record exactly when the POST resolved with a record that
    carries a truthy internal id, and that record is the one returned; a
    resolved POST whose record lacks such an id makes the call fail with
    the adapter's error. *)
Theorem addMovie_create_checks_id (o : RadarrMovieOptions)
    (w w1 : World) (movie : value) :
  getMovieByTmdbId axios (tmdbId o) w = (inr movie, w1) ->
  flag "id" movie = false ->
  flag "downloaded" movie = false ->
  requests (addMovie axios o w).2 =
    (requests w ++ [lookup_request (tmdbId o); create_request o])%list /\
  (forall created,
      (addMovie axios o w).1 = inr created <->
      axios (requests w1) (create_request o) = inr created /\
      flag "id" created = true) /\
  (forall created,
      axios (requests w1) (create_request o) = inr created ->
      flag "id" created = false ->
      (addMovie axios o w).1 = inl failed_to_add).
Proof.
  intros H Hi Hd.
  destruct (outcome_inv _ _ _ (addMovie_create_run _ _ _ _ H Hd Hi))
    as [Hres Hreq].
  destruct (getMovieByTmdbId_ok _ _ _ _ H) as [_ Hw1].
  split_and!.
  - rewrite Hreq, Hw1. unfold add_request. simpl. by rewrite <- app_assoc.
  - intros created. rewrite Hres.
    destruct (axios (requests w1) (create_request o)) as [e | d].
    + split; [discriminate | intros [[=] _]].
    + destruct (flag "id" d) eqn:Hfl.
      * split; [intros [= <-]; auto | intros [[= <-] _]; auto].
      * split; [discriminate | intros [[= <-] Hu]; congruence].
  - intros created Hpost Hfl. by rewrite Hres, Hpost, Hfl.
Qed.

(** C5, as amended.  When the external-id resolution inside [addMovie]
    fails, it fails with "Movie not found"; [addMovie] then fails too,
    having made no request but the lookup, and the error its caller
    observes is the generic "Failed to add movie to Radarr": the lookup's
    message only reaches the log. *)
Theorem addMovie_lookup_failure_is_generic (o : RadarrMovieOptions)
    (w w1 : World) (e : exn) :
  getMovieByTmdbId axios (tmdbId o) w = (inl e, w1) ->
  e = not_found /\
  (addMovie axios o w).1 = inl failed_to_add /\
  requests (addMovie axios o w).2 = (requests w ++ [lookup_request (tmdbId o)])%list /\
  last (logs (addMovie axios o w).2) = Some (add_failure_log o not_found).
Proof.
  intros H. rewrite (addMovie_not_found_run _ _ _ _ H).
  destruct (getMovieByTmdbId_err _ _ _ _ H) as [-> [cause ->]].
  cbn [fst snd]. split_and!; [done | done | done |].
  unfold add_log at 1. simpl. apply last_snoc.
Qed.

(** C6.  [getMovieByTmdbId] returns the first record of a non-empty
    lookup response, and fails with one and the same "Movie not found"
    error when the response is the empty array and when the request
    itself is rejected, whatever the rejection was. *)
Theorem getMovieByTmdbId_first_or_not_found (id : Z) (w : World) :
  (forall fields rest,
      axios (requests w) (lookup_request id) = inr (VArr (VObj fields :: rest)) ->
      (getMovieByTmdbId axios id w).1 = inr (VObj fields)) /\
  (axios (requests w) (lookup_request id) = inr (VArr []) ->
   (getMovieByTmdbId axios id w).1 = inl not_found) /\
  (forall e,
      axios (requests w) (lookup_request id) = inl e ->
      (getMovieByTmdbId axios id w).1 = inl not_found).
Proof.
  split_and!.
  - intros fields rest Hget. rewrite getMovieByTmdbId_run, Hget. reflexivity.
  - intros Hget. rewrite getMovieByTmdbId_run, Hget. reflexivity.
  - intros e Hget. rewrite getMovieByTmdbId_run, Hget. reflexivity.
Qed.

(** C7.  In the scenario where the lookup resolves the item to
    [{id:0, tmdbId:603, downloaded:false, monitored:false}] and the
    service answers the create with a record whose id is 42, [addMovie]
    makes the lookup GET and then the create POST, no PUT, and returns
    the record with id 42. *)
Theorem addMovie_scenario_create (o : RadarrMovieOptions) (w : World)
    (rest : list value) (created : value) :
  axios (requests w) (lookup_request (tmdbId o)) =
    inr (VArr (movie_record 0 false false :: rest)) ->
  axios (requests w ++ [lookup_request (tmdbId o)])%list (create_request o) =
    inr created ->
  get_field "id" created = inr (VNum 42) ->
  (addMovie axios o w).1 = inr created /\
  requests (addMovie axios o w).2 =
    (requests w ++ [lookup_request (tmdbId o); create_request o])%list.
Proof.
  intros Hget Hpost Hid.
  assert (H : getMovieByTmdbId axios (tmdbId o) w =
              (inr (movie_record 0 false false),
               add_request (lookup_request (tmdbId o)) w)).
  { rewrite getMovieByTmdbId_run, Hget. reflexivity. }
  destruct (addMovie_create_checks_id_aux o w _ _ H eq_refl eq_refl)
    as [Hres Hreq].
  rewrite Hreq. split; [| done].
  rewrite Hres. cbn [requests add_request]. rewrite Hpost.
  unfold flag. by rewrite Hid.
Qed.

(** C8.  For every well-formed queue envelope the service may answer
    with, [getQueue] returns exactly its [records] array; none of the
    pagination fields is part of the result. *)
Theorem getQueue_returns_records (w : World) (q : QueueResponse) :
  axios (requests w) queue_request = inr (queue_value q) ->
  getQueue axios w = (inr (VArr (records q)), add_request queue_request w).
Proof.
  intros Hget. unfold getQueue, try_catch. rewrite bind_run.
  unfold send. rewrite Hget. reflexivity.
Qed.

(** ** The rolling cache *)

Lemma getRolling_hit (r : Request) (ttl : Z) (w : World) (v : value) (expiry : Z) :
  cache w !! (path r, params r) = Some (v, expiry) ->
  now w < expiry ->
  getRolling axios r ttl w = (inr v, w).
Proof.
  intros Hc Hlive. unfold getRolling. cbv zeta. rewrite Hc.
  by rewrite bool_decide_eq_true_2.
Qed.

Lemma getRolling_expired (r : Request) (ttl : Z) (w : World) (v : value)
    (expiry : Z) :
  cache w !! (path r, params r) = Some (v, expiry) ->
  expiry <= now w ->
  getRolling axios r ttl w =
  match axios (requests w) r with
  | inr fetched =>
      (inr fetched,
       set_cache (path r, params r) (fetched, now w + ttl) (add_request r w))
  | inl e => (inl e, add_request r w)
  end.
Proof.
  intros Hc Hdead. unfold getRolling. cbv zeta. rewrite Hc.
  rewrite bool_decide_eq_false_2 by lia. unfold send.
  destruct (axios (requests w) r); reflexivity.
Qed.

Lemma getRolling_fetched (r : Request) (ttl : Z) (w w1 : World) (v : value) :
  getRolling axios r ttl w = (inr v, w1) ->
  requests w1 = (requests w ++ [r])%list ->
  cache w1 !! (path r, params r) = Some (v, now w + ttl).
Proof.
  intros Hrun Hreq.
  assert (Hgrow : requests w1 <> requests w).
  { rewrite Hreq. intros Heq. apply (f_equal length) in Heq.
    rewrite length_app in Heq. simpl in Heq. lia. }
  revert Hrun. unfold getRolling. cbv zeta. unfold send.
  destruct (cache w !! (path r, params r)) as [[v0 expiry] |].
  - destruct (bool_decide (now w < expiry)).
    + intros [= <- <-]. by destruct Hgrow.
    + destruct (axios (requests w) r) as [e | v1]; [discriminate |].
      intros [= <- <-]. unfold set_cache. simpl. apply lookup_insert_eq.
  - destruct (axios (requests w) r) as [e | v1]; [discriminate |].
    intros [= <- <-]. unfold set_cache. simpl. apply lookup_insert_eq.
Qed.

Lemma getProfiles_run (w : World) :
  getProfiles axios w =
  match getRolling axios profiles_request 3600 w with
  | (inr v, w') => (inr v, w')
  | (inl e, w') =>
      (inl (Error ("[Radarr] Failed to retrieve profiles: " +:+ message e)), w')
  end.
Proof. reflexivity. Qed.

(** C9.  After a call of [getProfiles] that fetched the profiles from the
    service, a second call made less than 3600 seconds after the first
    returns the cached value and leaves the world as it found it, so it
    makes no request; a call made after the 3600 seconds have passed
    sends the request again, and when the service answers, returns the
    fresh value and stores it for another 3600 seconds. *)
Theorem getProfiles_ttl_window (w w1 : World) (profiles : value) :
  getProfiles axios w = (inr profiles, w1) ->
  requests w1 = (requests w ++ [profiles_request])%list ->
  (forall w2,
      cache w2 = cache w1 ->
      now w2 < now w + 3600 ->
      getProfiles axios w2 = (inr profiles, w2)) /\
  (forall w2,
      cache w2 = cache w1 ->
      now w + 3600 < now w2 ->
      requests (getProfiles axios w2).2 = (requests w2 ++ [profiles_request])%list /\
      forall fresh,
        axios (requests w2) profiles_request = inr fresh ->
        (getProfiles axios w2).1 = inr fresh /\
        cache (getProfiles axios w2).2 !! profiles_key = Some (fresh, now w2 + 3600)).
Proof.
  intros Hfirst Hreq.
  assert (Hentry : cache w1 !! profiles_key = Some (profiles, now w + 3600)).
  { rewrite getProfiles_run in Hfirst.
    destruct (getRolling axios profiles_request 3600 w) as [[e | v] w'] eqn:Hroll;
      [discriminate |].
    injection Hfirst as <- <-.
    apply (getRolling_fetched _ _ _ _ _ Hroll Hreq). }
  split.
  - intros w2 Hcache Hlive. rewrite getProfiles_run.
    rewrite (getRolling_hit profiles_request 3600 w2 profiles (now w + 3600));
      [done | by rewrite Hcache | done].
  - intros w2 Hcache Hdead. rewrite getProfiles_run.
    rewrite (getRolling_expired profiles_request 3600 w2 profiles (now w + 3600));
      [| by rewrite Hcache | lia].
    destruct (axios (requests w2) profiles_request) as [e | v] eqn:Hget.
    + split; [done | discriminate].
    + split; [done |]. intros fresh [= <-]. split; [done |].
      cbn [fst snd]. unfold set_cache. simpl. apply lookup_insert_eq.
Qed.

(** ** URL building *)

Lemma append_assoc (a b c : string) : (a +:+ b) +:+ c = a +:+ (b +:+ c).
Proof.
  induction a as [| x a IH]; [done |].
  change (String x ((a +:+ b) +:+ c) = String x (a +:+ (b +:+ c))).
  by rewrite <- IH.
Qed.

Lemma endsWith_refl (s : string) : endsWith s s = true.
Proof. destruct s; cbn [endsWith]; by rewrite String.eqb_refl. Qed.

Lemma endsWith_app (pre s suffix : string) :
  endsWith s suffix = true -> endsWith (pre +:+ s) suffix = true.
Proof.
  intros Hs. induction pre as [| c pre IH]; [done |].
  change (String c pre +:+ s) with (String c (pre +:+ s)).
  cbn [endsWith]. rewrite IH. apply orb_true_r.
Qed.

(** C10.  For every settings value, the URL built with the path left out
    ends with the text "undefined" (it is the URL built for the path
    "undefined"), while a given path is appended as it is after
    scheme://hostname:port and the base-url prefix, if any. *)
Theorem buildRadarrUrl_path (s : RadarrSettings) :
  endsWith (buildRadarrUrl s None) "undefined" = true /\
  buildRadarrUrl s None = buildRadarrUrl s (Some "undefined") /\
  forall p : string,
    buildRadarrUrl s (Some p) =
      ((if useSsl s then "https" else "http") +:+ "://" +:+ hostname s +:+ ":"
       +:+ number_to_string (port s) +:+ default "" (baseUrl s)) +:+ p /\
    endsWith (buildRadarrUrl s (Some p)) p = true.
Proof.
  assert (Hends : forall p, endsWith (buildRadarrUrl s p) (interpolate p) = true).
  { intros p. unfold buildRadarrUrl.
    repeat apply endsWith_app. apply endsWith_refl. }
  split_and!.
  - apply (Hends None).
  - reflexivity.
  - intros p. split; [| apply (Hends (Some p))].
    unfold buildRadarrUrl, interpolate. simpl default.
    by rewrite !append_assoc.
Qed.

(** ** Beyond the claims: the adapter as a whole *)

Lemma quiet_ret {A} (a : A) : quiet (mret a).
Proof. by intros w. Qed.

Lemma quiet_throw {A} (e : exn) : quiet (@throw A e).
Proof. by intros w. Qed.

Lemma quiet_lift {A} (r : Result A) : quiet (lift r).
Proof. by intros w. Qed.

Lemma quiet_logger (lv : Level) (msg : string) (m : list (string * value)) :
  quiet (logger lv msg m).
Proof. by intros w. Qed.

Lemma quiet_send (r : Request) : quiet (send axios r).
Proof. by intros w. Qed.

Lemma quiet_bind {A B} (m : M A) (k : A -> M B) :
  quiet m -> (forall a, quiet (k a)) -> quiet (m ≫= k).
Proof.
  intros Hm Hk w. rewrite bind_run. specialize (Hm w).
  destruct (m w) as [[e | a] w']; [done |].
  destruct (Hk a w') as [Hc Hn]. simpl in Hm. by rewrite Hc, Hn.
Qed.

Lemma quiet_try {A} (m : M A) (h : exn -> M A) :
  quiet m -> (forall e, quiet (h e)) -> quiet (try_catch m h).
Proof.
  intros Hm Hh w. unfold try_catch. specialize (Hm w).
  destruct (m w) as [[e | a] w']; [| done].
  destruct (Hh e w') as [Hc Hn]. simpl in Hm. by rewrite Hc, Hn.
Qed.

Ltac quiet_steps :=
  repeat first
    [ apply quiet_ret | apply quiet_throw | apply quiet_lift
    | apply quiet_logger | apply quiet_send
    | apply quiet_bind; [| intros ?]
    | apply quiet_try; [| intros ?]
    | match goal with |- quiet (if ?b then _ else _) => destruct b end ].

Lemma quiet_getMovieByTmdbId (id : Z) : quiet (getMovieByTmdbId axios id).
Proof. unfold getMovieByTmdbId, index. quiet_steps. Qed.

Lemma quiet_addMovie (o : RadarrMovieOptions) : quiet (addMovie axios o).
Proof.
  unfold addMovie, field. apply quiet_try; [| intros ?; quiet_steps].
  apply quiet_bind; [apply quiet_getMovieByTmdbId | intros movie].
  quiet_steps.
Qed.

(** A [catch] block that always throws the same error decides what every
    failure of the whole [try] looks like. *)
Lemma try_catch_uniform {A} (m : M A) (h : exn -> M A) (e0 e : exn) (w : World) :
  (forall e' w', (h e' w').1 = inl e0) ->
  (try_catch m h w).1 = inl e -> e = e0.
Proof.
  intros Hh. unfold try_catch.
  destruct (m w) as [[e' | a] w']; [| discriminate].
  rewrite Hh. by intros [= <-].
Qed.

(** X1.  Whatever the service does, [addMovie] can fail in one way only:
    every error it hands to its caller is "Failed to add movie to Radarr",
    be the cause the lookup, a rejected PUT or POST, a malformed body or a
    response that does not show the change. *)
Theorem addMovie_fails_only_generic (o : RadarrMovieOptions) (w : World) (e : exn) :
  (addMovie axios o w).1 = inl e -> e = Error "Failed to add movie to Radarr".
Proof. apply try_catch_uniform. reflexivity. Qed.

Lemma writes_app (w : World) (rs tail : list Request) :
  requests w = (rs ++ tail)%list -> writes w = (filter is_write rs ++ filter is_write tail)%list.
Proof. intros H. unfold writes. by rewrite H, filter_app. Qed.

(** The requests of a whole [addMovie] call: the lookup, then nothing, the
    update or the create. *)
Lemma addMovie_requests (o : RadarrMovieOptions) (w : World) :
  exists tail,
    requests (addMovie axios o w).2 =
      (requests w ++ lookup_request (tmdbId o) :: tail)%list /\
    (tail = [] \/ (exists movie, tail = [update_request movie o]) \/
     tail = [create_request o]).
Proof.
  destruct (getMovieByTmdbId axios (tmdbId o) w) as [[e | movie] w1] eqn:H.
  - rewrite (addMovie_not_found_run _ _ _ _ H).
    destruct (getMovieByTmdbId_err _ _ _ _ H) as [_ [cause ->]].
    exists []. auto.
  - destruct (getMovieByTmdbId_ok _ _ _ _ H) as [_ Hw1].
    destruct (flag "downloaded" movie) eqn:Hd.
    { rewrite (addMovie_downloaded_run _ _ _ _ H Hd), Hw1. exists []. auto. }
    destruct (flag "id" movie) eqn:Hi.
    + destruct (flag "monitored" movie) eqn:Hmon.
      { rewrite (addMovie_monitored_run _ _ _ _ H Hd Hi Hmon), Hw1.
        exists []. auto. }
      destruct (outcome_inv _ _ _ (addMovie_update_run _ _ _ _ H Hd Hi Hmon))
        as [_ Hreq].
      exists [update_request movie o]. split; [| eauto].
      rewrite Hreq, Hw1. unfold add_request. simpl. by rewrite <- app_assoc.
    + destruct (outcome_inv _ _ _ (addMovie_create_run _ _ _ _ H Hd Hi))
        as [_ Hreq].
      exists [create_request o]. split; [| auto].
      rewrite Hreq, Hw1. unfold add_request. simpl. by rewrite <- app_assoc.
Qed.

(** X2.  Whatever the service does, a call of [addMovie] sends the lookup
    GET first and after it at most one more request, which is then a write
    (the PUT or the POST, never both); it leaves the response cache and the
    clock as they were. *)
Theorem addMovie_one_lookup_at_most_one_write (o : RadarrMovieOptions) (w : World) :
  exists tail,
    requests (addMovie axios o w).2 =
      (requests w ++ lookup_request (tmdbId o) :: tail)%list /\
    (length tail <= 1)%nat /\
    writes (addMovie axios o w).2 = (writes w ++ tail)%list /\
    cache (addMovie axios o w).2 = cache w /\
    now (addMovie axios o w).2 = now w.
Proof.
  destruct (addMovie_requests o w) as (tail & Hreq & Htail).
  destruct (quiet_addMovie o w) as [Hc Hn].
  exists tail. split_and!; [done | | | done | done].
  - destruct Htail as [-> | [[movie ->] | ->]]; simpl; lia.
  - rewrite (writes_app _ (requests w) (lookup_request (tmdbId o) :: tail));
      [| by rewrite Hreq].
    f_equal. destruct Htail as [-> | [[movie ->] | ->]]; reflexivity.
Qed.

(** X3.  When [addMovie] succeeds, the record it returns is one of three:
    the item the lookup resolved, returned without any write because it is
    downloaded or exists and is monitored; the record the service answered
    the PUT with, which is then monitored; or the record the service
    answered the POST with, which then carries an id. *)
Theorem addMovie_success_cases (o : RadarrMovieOptions) (w : World) (r : value) :
  (addMovie axios o w).1 = inr r ->
  exists movie w1,
    getMovieByTmdbId axios (tmdbId o) w = (inr movie, w1) /\
    ((r = movie /\
      requests (addMovie axios o w).2 = requests w1 /\
      (flag "downloaded" movie = true \/
       flag "id" movie = true /\ flag "monitored" movie = true)) \/
     (axios (requests w1) (update_request movie o) = inr r /\
      flag "monitored" r = true) \/
     (axios (requests w1) (create_request o) = inr r /\
      flag "id" r = true)).
Proof.
  destruct (getMovieByTmdbId axios (tmdbId o) w) as [[e | movie] w1] eqn:H.
  { rewrite (addMovie_not_found_run _ _ _ _ H). discriminate. }
  intros Hr. exists movie, w1. split; [done |].
  destruct (flag "downloaded" movie) eqn:Hd.
  { rewrite (addMovie_downloaded_run _ _ _ _ H Hd) in Hr |- *.
    injection Hr as <-. left. auto. }
  destruct (flag "id" movie) eqn:Hi.
  - destruct (flag "monitored" movie) eqn:Hmon.
    { rewrite (addMovie_monitored_run _ _ _ _ H Hd Hi Hmon) in Hr |- *.
      injection Hr as <-. left. auto. }
    destruct (outcome_inv _ _ _ (addMovie_update_run _ _ _ _ H Hd Hi Hmon))
      as [Hres _].
    rewrite Hres in Hr. right. left.
    destruct (axios (requests w1) (update_request movie o)) as [e | d];
      [discriminate |].
    destruct (flag "monitored" d) eqn:Hfl; [| discriminate].
    injection Hr as <-. auto.
  - destruct (outcome_inv _ _ _ (addMovie_create_run _ _ _ _ H Hd Hi))
      as [Hres _].
    rewrite Hres in Hr. right. right.
    destruct (axios (requests w1) (create_request o)) as [e | d];
      [discriminate |].
    destruct (flag "id" d) eqn:Hfl; [| discriminate].
    injection Hr as <-. auto.
Qed.

Lemma addMovie_update_rejected_run (o : RadarrMovieOptions) (w w1 : World)
    (movie : value) (e : exn) :
  getMovieByTmdbId axios (tmdbId o) w = (inr movie, w1) ->
  flag "downloaded" movie = false ->
  flag "id" movie = true ->
  flag "monitored" movie = false ->
  axios (requests w1) (update_request movie o) = inl e ->
  addMovie axios o w =
  (inl failed_to_add,
   add_log (add_failure_log o e) (add_request (update_request movie o) w1)).
Proof.
  intros H Hd Hi Hmon Hput. destruct (getMovieByTmdbId_ok _ _ _ _ H) as [Hm _].
  enter_addMovie H Hm. rewrite Hd, Hi, Hmon in *. run_binds.
  rewrite Hput. reflexivity.
Qed.

Lemma addMovie_create_rejected_run (o : RadarrMovieOptions) (w w1 : World)
    (movie : value) (e : exn) :
  getMovieByTmdbId axios (tmdbId o) w = (inr movie, w1) ->
  flag "downloaded" movie = false ->
  flag "id" movie = false ->
  axios (requests w1) (create_request o) = inl e ->
  addMovie axios o w =
  (inl failed_to_add,
   add_log (add_failure_log o e) (add_request (create_request o) w1)).
Proof.
  intros H Hd Hi Hpost. destruct (getMovieByTmdbId_ok _ _ _ _ H) as [Hm _].
  enter_addMovie H Hm. rewrite Hd, Hi in *. run_binds.
  rewrite Hpost. reflexivity.
Qed.

(** X4.  When the service rejects the write of [addMovie] (the PUT for an
    existing unmonitored item, the POST for an absent one), the caller gets
    the generic error, and the last log entry is the error entry that keeps
    what the caller does not see: the rejection's message, the request
    options and the body of the failing response. *)
Theorem addMovie_rejected_write_is_logged (o : RadarrMovieOptions)
    (w w1 : World) (movie : value) (e : exn) :
  getMovieByTmdbId axios (tmdbId o) w = (inr movie, w1) ->
  flag "downloaded" movie = false ->
  axios (requests w1)
    (if flag "id" movie then update_request movie o else create_request o) = inl e ->
  (flag "id" movie = true -> flag "monitored" movie = false) ->
  (addMovie axios o w).1 = inl failed_to_add /\
  last (logs (addMovie axios o w).2) =
    Some (mkLog LError
      "Failed to add movie to Radarr. This might happen if the movie already exists, in which case you can safely ignore this error."
      [("label", VStr "Radarr");
       ("errorMessage", VStr (message e));
       ("options", options_value o);
       ("response", response_data_of e)]).
Proof.
  intros H Hd Hwrite Hmon.
  destruct (flag "id" movie) eqn:Hi.
  - rewrite (addMovie_update_rejected_run _ _ _ _ _ H Hd Hi (Hmon eq_refl) Hwrite).
    split; [done |]. unfold add_log at 1. simpl. apply last_snoc.
  - rewrite (addMovie_create_rejected_run _ _ _ _ _ H Hd Hi Hwrite).
    split; [done |]. unfold add_log at 1. simpl. apply last_snoc.
Qed.

(** X5.  [getMovieByTmdbId] succeeds exactly when the request resolves with
    a body whose element 0 is truthy, and that element is the result; in
    every other case (rejected request, [null] or missing body, empty
    array, falsy first element) the one error it gives is "Movie not
    found".  So a value it returns is never [undefined], [null], [0],
    [false] or the empty string. *)
Theorem getMovieByTmdbId_success_iff (id : Z) (w : World) :
  (forall movie,
      (getMovieByTmdbId axios id w).1 = inr movie <->
      exists response_data,
        axios (requests w) (lookup_request id) = inr response_data /\
        get_index 0 response_data = inr movie /\
        to_boolean movie = true) /\
  (forall e,
      (getMovieByTmdbId axios id w).1 = inl e -> e = Error "Movie not found").
Proof.
  rewrite getMovieByTmdbId_run. cbv zeta. split.
  - intros movie.
    destruct (axios (requests w) (lookup_request id)) as [e | d].
    { split; [discriminate | intros (d & [=] & _)]. }
    destruct (get_index 0 d) as [e | first] eqn:Hidx.
    { split; [discriminate | intros (d' & [= <-] & Hd' & _)]. congruence. }
    destruct (to_boolean first) eqn:Ht.
    + split.
      * intros [= <-]. eauto.
      * intros (d' & [= <-] & Hd' & _). simpl. congruence.
    + split; [discriminate |].
      intros (d' & [= <-] & Hd' & Hm). congruence.
  - intros e.
    destruct (axios (requests w) (lookup_request id)) as [e0 | d].
    { by intros [= <-]. }
    destruct (get_index 0 d) as [e0 | first]; [by intros [= <-] |].
    destruct (to_boolean first); [discriminate | by intros [= <-]].
Qed.

(** X6.  A lookup that succeeds writes nothing to the log.  A lookup whose
    request is rejected writes exactly one entry, at error level, that
    keeps the rejection's own message, the one the caller no longer sees;
    a lookup that resolves with an empty array writes exactly one error
    entry with the message "Movie not found". *)
Theorem getMovieByTmdbId_logs_the_cause (id : Z) (w : World) :
  (forall movie,
      (getMovieByTmdbId axios id w).1 = inr movie ->
      logs (getMovieByTmdbId axios id w).2 = logs w) /\
  (forall e,
      axios (requests w) (lookup_request id) = inl e ->
      logs (getMovieByTmdbId axios id w).2 =
        (logs w ++ [mkLog LError "Error retrieving movie by TMDb ID"
                      [("label", VStr "Radarr API");
                       ("message", VStr (message e))]])%list) /\
  (axios (requests w) (lookup_request id) = inr (VArr []) ->
   logs (getMovieByTmdbId axios id w).2 =
     (logs w ++ [mkLog LError "Error retrieving movie by TMDb ID"
                   [("label", VStr "Radarr API");
                    ("message", VStr "Movie not found")]])%list).
Proof.
  rewrite getMovieByTmdbId_run. cbv zeta. split_and!.
  - intros movie.
    destruct (axios (requests w) (lookup_request id)) as [e | d]; [discriminate |].
    destruct (get_index 0 d) as [e | first]; [discriminate |].
    destruct (to_boolean first); [done | discriminate].
  - intros e ->. reflexivity.
  - intros ->. reflexivity.
Qed.

(** ** The body of the update *)

Lemma assoc_set_field_eq (k : string) (v : value) (fs : list (string * value)) :
  assoc k (set_field k v fs) = Some v.
Proof.
  induction fs as [| [k' v'] fs IH]; simpl.
  - by rewrite String.eqb_refl.
  - destruct (String.eqb_spec k k') as [-> | Hne]; simpl.
    + by rewrite String.eqb_refl.
    + by destruct (String.eqb_spec k k').
Qed.

Lemma assoc_set_field_ne (k k' : string) (v : value) (fs : list (string * value)) :
  k <> k' -> assoc k' (set_field k v fs) = assoc k' fs.
Proof.
  intros Hne. induction fs as [| [k0 v0] fs IH]; simpl.
  - destruct (String.eqb_spec k' k); congruence.
  - destruct (String.eqb_spec k k0) as [-> | Hk]; simpl.
    + destruct (String.eqb_spec k' k0); congruence.
    + by rewrite IH.
Qed.

Lemma assoc_not_bound (k : string) (fs : list (string * value)) :
  k ∉ fs.*1 -> assoc k fs = None.
Proof.
  induction fs as [| [k' v'] fs IH]; [done |]. simpl.
  rewrite not_elem_of_cons. intros [Hne Hnin].
  destruct (String.eqb_spec k k'); [done | auto].
Qed.

(** Reading a key of [{...base, k1: v1, ..., kn: vn}] with distinct [ki]. *)
Lemma assoc_object_literal (k : string) (base props : list (string * value)) :
  NoDup props.*1 ->
  assoc k (foldl (fun acc kv => set_field kv.1 kv.2 acc) base props) =
  match assoc k props with
  | Some v => Some v
  | None => assoc k base
  end.
Proof.
  revert base. induction props as [| [k0 v0] props IH]; intros base; [done |].
  rewrite fmap_cons, NoDup_cons. intros [Hnin Hnd]. simpl in Hnin |- *.
  rewrite (IH _ Hnd).
  destruct (String.eqb_spec k k0) as [-> | Hne].
  - by rewrite (assoc_not_bound _ _ Hnin), assoc_set_field_eq.
  - rewrite assoc_set_field_ne by congruence. done.
Qed.

Lemma requested_fields_distinct (o : RadarrMovieOptions) :
  NoDup (requested_fields o).*1.
Proof.
  unfold requested_fields. simpl fmap. compute_done.
Qed.

Lemma flag_is_object (k : string) (v : value) :
  flag k v = true -> exists fs, v = VObj fs.
Proof. destruct v; try discriminate. eauto. Qed.

(** X7.  The body of the update PUT is the record the lookup resolved with
    the requested attributes written over it: every attribute the request
    names reads as requested, and every other field of the resolved record,
    its [id] above all, is sent back as the service gave it. *)
Theorem update_request_body (o : RadarrMovieOptions) (movie : value) :
  flag "id" movie = true ->
  exists body,
    data (update_request movie o) = Some body /\
    (forall k v, assoc k (requested_fields o) = Some v -> get_field k body = inr v) /\
    (forall k, assoc k (requested_fields o) = None ->
               get_field k body = get_field k movie) /\
    get_field "id" body = get_field "id" movie /\
    get_field "monitored" body = inr (of_option_bool (monitored o)).
Proof.
  intros Hid. destruct (flag_is_object _ _ Hid) as [fs ->].
  eexists. split; [reflexivity |].
  assert (Hread : forall k,
    get_field k (object_literal (spread (VObj fs)) (requested_fields o)) =
    inr (default VUndefined
           (match assoc k (requested_fields o) with
            | Some v => Some v
            | None => assoc k fs
            end))).
  { intros k. unfold object_literal, get_field.
    by rewrite (assoc_object_literal _ _ _ (requested_fields_distinct o)). }
  split_and!.
  - intros k v Hk. by rewrite Hread, Hk.
  - intros k Hk. by rewrite Hread, Hk.
  - by rewrite Hread.
  - by rewrite Hread.
Qed.

(** ** The read operations *)

Lemma try_catch_send_sends_only (r : Request) (h : exn -> M value) :
  (forall e w, (h e w).2 = w) ->
  sends_only r (try_catch (send axios r) h).
Proof.
  intros Hh w. unfold try_catch, send.
  destruct (axios (requests w) r) as [e | d]; [rewrite Hh |]; done.
Qed.

(** X8.  [getMovies], [getMovie], [getMovieByTmdbId] and [getQueue] are
    always live: each call, successful or not and whatever the response
    cache holds, sends exactly one request, its GET, never a write, and
    leaves the cache and the clock as they were. *)
Theorem live_reads_send_one_get (id : Z) :
  (sends_only (mkRequest GET "/movie" [] None) (getMovies axios) /\
   sends_only (mkRequest GET ("/movie/" +:+ number_to_string id) [] None)
     (getMovie axios id)) /\
  (sends_only
     (mkRequest GET "/movie/lookup" [("term", "tmdb:" +:+ number_to_string id)] None)
     (getMovieByTmdbId axios id) /\
   sends_only (mkRequest GET "/queue" [] None) (getQueue axios)).
Proof.
  split_and!.
  - by apply try_catch_send_sends_only.
  - by apply try_catch_send_sends_only.
  - intros w. destruct (quiet_getMovieByTmdbId id w) as [Hc Hn].
    split; [| done].
    destruct (getMovieByTmdbId axios id w) as [[e | m] w1] eqn:H.
    + by destruct (getMovieByTmdbId_err _ _ _ _ H) as [_ [cause ->]].
    + by destruct (getMovieByTmdbId_ok _ _ _ _ H) as [_ ->].
  - intros w. unfold getQueue, try_catch. rewrite bind_run. unfold send, field, lift.
    destruct (axios (requests w) queue_request) as [e | d]; [done |].
    by destruct (get_field "records" d).
Qed.

(** X9.  [getQueue] does not check the envelope.  A resolved body other
    than [undefined] and [null] makes the call succeed with whatever its
    [records] property is, which is [undefined] for an object without the
    key and for a body that is no object at all; a missing or [null] body
    and a rejected request make it fail with a message that starts with
    "[Radarr] Failed to retrieve queue: ", followed for a rejection by the
    rejection's own message. *)
Theorem getQueue_body_shapes (w : World) :
  (forall fs,
      axios (requests w) queue_request = inr (VObj fs) ->
      (getQueue axios w).1 = inr (default VUndefined (assoc "records" fs))) /\
  (forall body,
      axios (requests w) queue_request = inr body ->
      body <> VUndefined ->
      body <> VNull ->
      (forall fs, body <> VObj fs) ->
      (getQueue axios w).1 = inr VUndefined) /\
  (forall body,
      axios (requests w) queue_request = inr body ->
      body = VUndefined \/ body = VNull ->
      exists msg,
        (getQueue axios w).1 = inl (Error ("[Radarr] Failed to retrieve queue: " +:+ msg))) /\
  (forall e,
      axios (requests w) queue_request = inl e ->
      (getQueue axios w).1 =
        inl (Error ("[Radarr] Failed to retrieve queue: " +:+ message e))).
Proof.
  unfold getQueue, try_catch. rewrite bind_run. unfold send, field, lift.
  split_and!.
  - intros fs ->. reflexivity.
  - intros body -> Hu Hn Hobj.
    destruct body; try done. by destruct (Hobj fields).
  - intros body -> [-> | ->]; eexists; reflexivity.
  - intros e ->. reflexivity.
Qed.




(** X11.  Two different ids, both within the integers a JavaScript number
    holds exactly (below 2^53 in absolute value, where a number prints as
    its decimal digits), never give the same request: the path of
    [getMovie] and the search term of [getMovieByTmdbId] differ. *)
Theorem id_requests_injective (id1 id2 : Z) :
  - 2 ^ 53 < id1 < 2 ^ 53 ->
  - 2 ^ 53 < id2 < 2 ^ 53 ->
  id1 <> id2 ->
  movie_request id1 <> movie_request id2 /\
  path (movie_request id1) <> path (movie_request id2) /\
  lookup_request id1 <> lookup_request id2 /\
  params (lookup_request id1) <> params (lookup_request id2).
Proof.
  intros _ _ Hne.
  assert (Hpath : path (movie_request id1) <> path (movie_request id2)).
  { unfold movie_request, number_to_string. simpl. intros H.
    apply String.app_inj in H. by apply (inj pretty) in H. }
  assert (Hterm : params (lookup_request id1) <> params (lookup_request id2)).
  { unfold lookup_request, number_to_string. simpl. intros [= H].
    apply String.app_inj in H. by apply (inj pretty) in H. }
  split_and!; [| done | | done]; intros H; [apply Hpath | apply Hterm]; by rewrite H.
Qed.

(** X12.  The URL [buildRadarrUrl] builds starts with "https://" exactly
    when [useSsl] is set and with "http://" otherwise, and settings without
    a base URL give the same URL as settings whose base URL is empty. *)
Theorem buildRadarrUrl_scheme (s : RadarrSettings) (p : option string) :
  startsWith (buildRadarrUrl s p) "https://" = useSsl s /\
  startsWith (buildRadarrUrl s p) "http://" = negb (useSsl s) /\
  buildRadarrUrl (mkSettings (useSsl s) (hostname s) (port s) None) p =
  buildRadarrUrl (mkSettings (useSsl s) (hostname s) (port s) (Some "")) p.
Proof.
  unfold buildRadarrUrl. destruct (useSsl s); split_and!; reflexivity.
Qed.


Lemma addMovie_update_refused_run (o : RadarrMovieOptions) (w w1 : World)
    (movie : value) (fs : list (string * value)) :
  getMovieByTmdbId axios (tmdbId o) w = (inr movie, w1) ->
  flag "downloaded" movie = false ->
  flag "id" movie = true ->
  flag "monitored" movie = false ->
  axios (requests w1) (update_request movie o) = inr (VObj fs) ->
  flag "monitored" (VObj fs) = false ->
  addMovie axios o w =
  (inl failed_to_add,
   add_log (add_failure_log o (Error "Failed to update existing movie in Radarr"))
     (add_log (mkLog LError "Failed to update existing movie in Radarr"
                 [("label", VStr "Radarr"); ("options", options_value o)])
        (add_request (update_request movie o) w1))).
Proof.
  intros H Hd Hi Hmon Hput Hfl. destruct (getMovieByTmdbId_ok _ _ _ _ H) as [Hm _].
  enter_addMovie H Hm. rewrite Hd, Hi, Hmon in *. run_binds.
  rewrite Hput. cbv beta iota. unfold flag in Hfl. simpl in Hfl |- *.
  rewrite Hfl. reflexivity.
Qed.

Lemma addMovie_create_refused_run (o : RadarrMovieOptions) (w w1 : World)
    (movie : value) (fs : list (string * value)) :
  getMovieByTmdbId axios (tmdbId o) w = (inr movie, w1) ->
  flag "downloaded" movie = false ->
  flag "id" movie = false ->
  axios (requests w1) (create_request o) = inr (VObj fs) ->
  flag "id" (VObj fs) = false ->
  addMovie axios o w =
  (inl failed_to_add,
   add_log (add_failure_log o (Error "Failed to add movie to Radarr"))
     (add_log (mkLog LError "Failed to add movie to Radarr"
                 [("label", VStr "Radarr"); ("options", options_value o)])
        (add_request (create_request o) w1))).
Proof.
  intros H Hd Hi Hpost Hfl. destruct (getMovieByTmdbId_ok _ _ _ _ H) as [Hm _].
  enter_addMovie H Hm. rewrite Hd, Hi in *. run_binds.
  rewrite Hpost. cbv beta iota. unfold flag in Hfl. simpl in Hfl |- *.
  rewrite Hfl. reflexivity.
Qed.

(** X14.  When the service answers the write of [addMovie] with a record
    that does not show the change (still unmonitored after the PUT, no id
    after the POST), the error thrown inside the [try] is caught by the
    same call's [catch]: the call adds two error entries to the log, the
    specific one and then the generic one that quotes the specific message,
    and the caller is left with the generic error. *)
Theorem addMovie_refused_write_logs_twice (o : RadarrMovieOptions)
    (w w1 : World) (movie : value) (fs : list (string * value)) :
  getMovieByTmdbId axios (tmdbId o) w = (inr movie, w1) ->
  flag "downloaded" movie = false ->
  (flag "id" movie = true -> flag "monitored" movie = false) ->
  axios (requests w1)
    (if flag "id" movie then update_request movie o else create_request o) =
    inr (VObj fs) ->
  flag (if flag "id" movie then "monitored" else "id") (VObj fs) = false ->
  (addMovie axios o w).1 = inl (Error "Failed to add movie to Radarr") /\
  logs (addMovie axios o w).2 =
    (logs w ++
     [mkLog LError
        (if flag "id" movie then "Failed to update existing movie in Radarr"
         else "Failed to add movie to Radarr")
        [("label", VStr "Radarr"); ("options", options_value o)];
      mkLog LError
        "Failed to add movie to Radarr. This might happen if the movie already exists, in which case you can safely ignore this error."
        [("label", VStr "Radarr");
         ("errorMessage",
          VStr (if flag "id" movie then "Failed to update existing movie in Radarr"
                else "Failed to add movie to Radarr"));
         ("options", options_value o);
         ("response", VUndefined)]])%list.
Proof.
  intros H Hd Hmon Hwrite Hfl.
  destruct (getMovieByTmdbId_ok _ _ _ _ H) as [_ Hw1].
  destruct (flag "id" movie) eqn:Hi.
  - rewrite (addMovie_update_refused_run _ _ _ _ _ H Hd Hi (Hmon eq_refl) Hwrite Hfl).
    split; [done |]. rewrite Hw1. simpl. by rewrite <- app_assoc.
  - rewrite (addMovie_create_refused_run _ _ _ _ _ H Hd Hi Hwrite Hfl).
    split; [done |]. rewrite Hw1. simpl. by rewrite <- app_assoc.
Qed.

(** ** What never looks at the cache *)

Lemma blind_ret {A} (a : A) : blind (mret a).
Proof. by intros w w' H. Qed.

Lemma blind_throw {A} (e : exn) : blind (@throw A e).
Proof. by intros w w' H. Qed.

Lemma blind_lift {A} (r : Result A) : blind (lift r).
Proof. by intros w w' H. Qed.

Lemma blind_logger (lv : Level) (msg : string) (m : list (string * value)) :
  blind (logger lv msg m).
Proof. by intros w w' H. Qed.

Lemma blind_send (r : Request) : blind (send axios r).
Proof. intros w w' H. unfold send. simpl. by rewrite H. Qed.

Lemma blind_bind {A B} (m : M A) (k : A -> M B) :
  blind m -> (forall a, blind (k a)) -> blind (m ≫= k).
Proof.
  intros Hm Hk w w' H. rewrite !bind_run. destruct (Hm w w' H) as [Hr Hq].
  destruct (m w) as [[e | a] w1], (m w') as [[e' | a'] w1'];
    simpl in Hr, Hq; simplify_eq; [done |].
  by apply Hk.
Qed.

Lemma blind_try {A} (m : M A) (h : exn -> M A) :
  blind m -> (forall e, blind (h e)) -> blind (try_catch m h).
Proof.
  intros Hm Hh w w' H. unfold try_catch. destruct (Hm w w' H) as [Hr Hq].
  destruct (m w) as [[e | a] w1], (m w') as [[e' | a'] w1'];
    simpl in Hr, Hq; simplify_eq; [| done].
  by apply Hh.
Qed.

Ltac blind_steps :=
  repeat first
    [ apply blind_ret | apply blind_throw | apply blind_lift
    | apply blind_logger | apply blind_send
    | apply blind_bind; [| intros ?]
    | apply blind_try; [| intros ?]
    | match goal with |- blind (if ?b then _ else _) => destruct b end ].

Lemma blind_getMovieByTmdbId (id : Z) : blind (getMovieByTmdbId axios id).
Proof. unfold getMovieByTmdbId, index. blind_steps. Qed.

(** X15.  [addMovie], [getMovieByTmdbId], [getMovies], [getMovie] and
    [getQueue] never consult the response cache, the clock or the log: in
    two worlds with the same request history each of them returns the same
    result and sends the same requests, whatever the caches hold. *)
Theorem live_operations_ignore_cache (o : RadarrMovieOptions) (id : Z)
    (w : World) (ls : list LogEntry) (c : gmap CacheKey (value * Z)) (t : Z) :
  outcome (addMovie axios o (mkWorld (requests w) ls c t)) =
    outcome (addMovie axios o w) /\
  outcome (getMovieByTmdbId axios id (mkWorld (requests w) ls c t)) =
    outcome (getMovieByTmdbId axios id w) /\
  outcome (getMovies axios (mkWorld (requests w) ls c t)) =
    outcome (getMovies axios w) /\
  outcome (getMovie axios id (mkWorld (requests w) ls c t)) =
    outcome (getMovie axios id w) /\
  outcome (getQueue axios (mkWorld (requests w) ls c t)) =
    outcome (getQueue axios w).
Proof.
  assert (Huse : forall (m : M value),
             blind m -> outcome (m (mkWorld (requests w) ls c t)) = outcome (m w)).
  { intros m Hm. destruct (Hm (mkWorld (requests w) ls c t) w eq_refl) as [Hr Hq].
    unfold outcome. by rewrite Hr, Hq. }
  split_and!; apply Huse.
  - unfold addMovie, field. apply blind_try; [| intros ?; blind_steps].
    apply blind_bind; [apply blind_getMovieByTmdbId | intros movie].
    blind_steps.
  - apply blind_getMovieByTmdbId.
  - unfold getMovies. blind_steps.
  - unfold getMovie. blind_steps.
  - unfold getQueue, field. blind_steps.
Qed.

End Properties.

(** ** The statements at work on the sample services *)

Lemma addMovie_downloaded_is_noop_witness :
  flag "downloaded" downloaded_unmonitored = true /\
  (addMovie downloaded_service matrix_options fresh_world).1 =
    inr downloaded_unmonitored /\
  writes (addMovie downloaded_service matrix_options fresh_world).2 = [].
Proof.
  assert (H : getMovieByTmdbId downloaded_service (tmdbId matrix_options) fresh_world =
              (inr downloaded_unmonitored,
               add_request (lookup_request 603) fresh_world))
    by (vm_compute; reflexivity).
  assert (Hd : flag "downloaded" downloaded_unmonitored = true) by reflexivity.
  destruct (addMovie_downloaded_is_noop downloaded_service matrix_options
              fresh_world _ _ H Hd) as (Hres & _ & Hwrites).
  exact (conj Hd (conj Hres Hwrites)).
Defined.

Lemma addMovie_monitored_is_noop_witness :
  flag "id" monitored_movie = true /\
  flag "downloaded" monitored_movie = false /\
  flag "monitored" monitored_movie = true /\
  (addMovie monitored_service matrix_options fresh_world).1 = inr monitored_movie /\
  writes (addMovie monitored_service matrix_options fresh_world).2 = [].
Proof.
  assert (H : getMovieByTmdbId monitored_service (tmdbId matrix_options) fresh_world =
              (inr monitored_movie, add_request (lookup_request 603) fresh_world))
    by (vm_compute; reflexivity).
  destruct (addMovie_monitored_is_noop monitored_service matrix_options
              fresh_world _ _ H eq_refl eq_refl eq_refl) as (Hres & _ & Hwrites).
  exact (conj eq_refl (conj eq_refl (conj eq_refl (conj Hres Hwrites)))).
Defined.

(** The update goes through: the record the PUT answered with is returned. *)
Lemma addMovie_update_checks_monitored_witness :
  flag "id" unmonitored_movie = true /\
  flag "monitored" unmonitored_movie = false /\
  flag "downloaded" unmonitored_movie = false /\
  (addMovie updating_service matrix_options fresh_world).1 =
    inr (movie_record 7 false true) /\
  (addMovie ignoring_service matrix_options fresh_world).1 = inl failed_to_add.
Proof.
  assert (H1 : getMovieByTmdbId updating_service (tmdbId matrix_options) fresh_world =
               (inr unmonitored_movie, add_request (lookup_request 603) fresh_world))
    by (vm_compute; reflexivity).
  assert (H2 : getMovieByTmdbId ignoring_service (tmdbId matrix_options) fresh_world =
               (inr unmonitored_movie, add_request (lookup_request 603) fresh_world))
    by (vm_compute; reflexivity).
  destruct (addMovie_update_checks_monitored updating_service matrix_options
              fresh_world _ _ H1 eq_refl eq_refl eq_refl) as (_ & Hiff & _).
  destruct (addMovie_update_checks_monitored ignoring_service matrix_options
              fresh_world _ _ H2 eq_refl eq_refl eq_refl) as (_ & _ & Hfail).
  refine (conj eq_refl (conj eq_refl (conj eq_refl (conj _ _)))).
  - apply Hiff. split; reflexivity.
  - apply (Hfail unmonitored_movie); reflexivity.
Defined.

(** C1 as stated fails: the resolved item exists and is unmonitored, the
    service would answer an update with a monitored record, and yet no PUT
    is sent and the existing, unmonitored record is what comes back. *)
Lemma addMovie_downloaded_unmonitored_sends_no_update :
  getMovieByTmdbId downloaded_service (tmdbId matrix_options) fresh_world =
    (inr downloaded_unmonitored, add_request (lookup_request 603) fresh_world) /\
  flag "id" downloaded_unmonitored = true /\
  flag "monitored" downloaded_unmonitored = false /\
  requests (addMovie downloaded_service matrix_options fresh_world).2 =
    [lookup_request 603] /\
  (addMovie downloaded_service matrix_options fresh_world).1 =
    inr downloaded_unmonitored /\
  downloaded_service [lookup_request 603]
    (update_request downloaded_unmonitored matrix_options) =
    inr (movie_record 7 true true) /\
  flag "monitored" (movie_record 7 true true) = true.
Proof. vm_compute. repeat split. Qed.

Lemma addMovie_create_checks_id_witness :
  flag "id" catalogue_entry = false /\
  flag "downloaded" catalogue_entry = false /\
  (addMovie creating_service matrix_options fresh_world).1 = inr created_movie /\
  (addMovie empty_created_service matrix_options fresh_world).1 = inl failed_to_add.
Proof.
  assert (H1 : getMovieByTmdbId creating_service (tmdbId matrix_options) fresh_world =
               (inr catalogue_entry, add_request (lookup_request 603) fresh_world))
    by (vm_compute; reflexivity).
  assert (H2 : getMovieByTmdbId empty_created_service (tmdbId matrix_options)
                 fresh_world =
               (inr catalogue_entry, add_request (lookup_request 603) fresh_world))
    by (vm_compute; reflexivity).
  destruct (addMovie_create_checks_id creating_service matrix_options
              fresh_world _ _ H1 eq_refl eq_refl) as (_ & Hiff & _).
  destruct (addMovie_create_checks_id empty_created_service matrix_options
              fresh_world _ _ H2 eq_refl eq_refl) as (_ & _ & Hfail).
  refine (conj eq_refl (conj eq_refl (conj _ _))).
  - apply Hiff. split; reflexivity.
  - apply (Hfail (VObj [("title", VStr "The Matrix")])); reflexivity.
Defined.

Lemma addMovie_lookup_failure_is_generic_witness :
  (getMovieByTmdbId empty_service (tmdbId matrix_options) fresh_world).1 =
    inl not_found /\
  (addMovie empty_service matrix_options fresh_world).1 = inl failed_to_add /\
  writes (addMovie empty_service matrix_options fresh_world).2 = [].
Proof.
  pose (w1 := (getMovieByTmdbId empty_service (tmdbId matrix_options) fresh_world).2).
  assert (H : getMovieByTmdbId empty_service (tmdbId matrix_options) fresh_world =
              (inl not_found, w1)) by (vm_compute; reflexivity).
  destruct (addMovie_lookup_failure_is_generic empty_service matrix_options
              fresh_world w1 not_found H) as (_ & Hres & Hreq & _).
  split; [by rewrite H |]. split; [exact Hres |].
  unfold writes. rewrite Hreq. reflexivity.
Defined.

(** C5 as stated fails: the lookup fails with "Movie not found", and the
    error [addMovie] hands to its caller is a different one. *)
Lemma addMovie_does_not_propagate_not_found :
  (getMovieByTmdbId empty_service (tmdbId matrix_options) fresh_world).1 =
    inl (Error "Movie not found") /\
  (addMovie empty_service matrix_options fresh_world).1 =
    inl (Error "Failed to add movie to Radarr") /\
  (addMovie empty_service matrix_options fresh_world).1 <>
  (getMovieByTmdbId empty_service (tmdbId matrix_options) fresh_world).1.
Proof.
  assert (Hl : (getMovieByTmdbId empty_service (tmdbId matrix_options) fresh_world).1 =
               inl (Error "Movie not found")) by (vm_compute; reflexivity).
  assert (Ha : (addMovie empty_service matrix_options fresh_world).1 =
               inl (Error "Failed to add movie to Radarr")) by (vm_compute; reflexivity).
  split; [exact Hl |]. split; [exact Ha |].
  rewrite Hl, Ha. discriminate.
Qed.

Lemma getMovieByTmdbId_first_or_not_found_witness :
  (getMovieByTmdbId creating_service 603 fresh_world).1 = inr catalogue_entry /\
  (getMovieByTmdbId empty_service 603 fresh_world).1 = inl not_found /\
  (getMovieByTmdbId failing_service 603 fresh_world).1 = inl not_found.
Proof.
  destruct (getMovieByTmdbId_first_or_not_found creating_service 603 fresh_world)
    as (Hfirst & _ & _).
  destruct (getMovieByTmdbId_first_or_not_found empty_service 603 fresh_world)
    as (_ & Hempty & _).
  destruct (getMovieByTmdbId_first_or_not_found failing_service 603 fresh_world)
    as (_ & _ & Hfail).
  refine (conj _ (conj _ _)).
  - apply (Hfirst _ []). reflexivity.
  - apply Hempty. reflexivity.
  - apply (Hfail (AxiosError "Request failed with status code 500" None)).
    reflexivity.
Defined.

Lemma addMovie_scenario_create_witness :
  get_field "id" created_movie = inr (VNum 42) /\
  (addMovie creating_service matrix_options fresh_world).1 = inr created_movie /\
  requests (addMovie creating_service matrix_options fresh_world).2 =
    [lookup_request 603; create_request matrix_options].
Proof.
  refine (conj eq_refl _).
  apply (addMovie_scenario_create creating_service matrix_options fresh_world
           [] created_movie); reflexivity.
Defined.

Lemma getQueue_returns_records_witness :
  queue_service (requests fresh_world) queue_request = inr (queue_value sample_queue) /\
  getQueue queue_service fresh_world =
    (inr (VArr [VObj [("movieId", VNum 42); ("status", VStr "downloading")]]),
     add_request queue_request fresh_world).
Proof.
  refine (conj eq_refl _).
  apply (getQueue_returns_records queue_service fresh_world sample_queue).
  reflexivity.
Defined.

(** A first call at second 1000 fetches; a call at second 4599 is served
    from the cache; a call at second 4601 goes to the service again. *)
Lemma getProfiles_ttl_window_witness :
  getProfiles profiles_service profiles_start =
    (inr sample_profiles, profiles_fetched) /\
  requests profiles_fetched = [profiles_request] /\
  getProfiles profiles_service (at_time 4599 profiles_fetched) =
    (inr sample_profiles, at_time 4599 profiles_fetched) /\
  requests (getProfiles profiles_service (at_time 4601 profiles_fetched)).2 =
    [profiles_request; profiles_request].
Proof.
  assert (H : getProfiles profiles_service profiles_start =
              (inr sample_profiles, profiles_fetched)) by reflexivity.
  assert (Hreq : requests profiles_fetched =
                 (requests profiles_start ++ [profiles_request])%list)
    by reflexivity.
  destruct (getProfiles_ttl_window profiles_service profiles_start
              profiles_fetched sample_profiles H Hreq) as [Hhit Hmiss].
  refine (conj H (conj Hreq (conj _ _))).
  - apply Hhit; [reflexivity | vm_compute; reflexivity].
  - apply (Hmiss (at_time 4601 profiles_fetched));
      [reflexivity | vm_compute; reflexivity].
Defined.

Example buildRadarrUrl_without_path :
  buildRadarrUrl sample_settings None = "http://localhost:7878/radarrundefined".
Proof. reflexivity. Qed.

Example buildRadarrUrl_with_path :
  buildRadarrUrl sample_settings (Some "/api/v3") =
    "http://localhost:7878/radarr/api/v3".
Proof. reflexivity. Qed.

Lemma addMovie_fails_only_generic_witness :
  (addMovie conflicting_service matrix_options fresh_world).1 = inl failed_to_add /\
  failed_to_add = Error "Failed to add movie to Radarr".
Proof.
  assert (H : (addMovie conflicting_service matrix_options fresh_world).1 =
              inl failed_to_add) by (vm_compute; reflexivity).
  exact (conj H (addMovie_fails_only_generic conflicting_service matrix_options
                   fresh_world failed_to_add H)).
Defined.

Lemma addMovie_success_cases_witness :
  (addMovie creating_service matrix_options fresh_world).1 = inr created_movie /\
  exists movie w1,
    getMovieByTmdbId creating_service (tmdbId matrix_options) fresh_world =
      (inr movie, w1) /\
    ((created_movie = movie /\
      requests (addMovie creating_service matrix_options fresh_world).2 =
        requests w1 /\
      (flag "downloaded" movie = true \/
       flag "id" movie = true /\ flag "monitored" movie = true)) \/
     (creating_service (requests w1) (update_request movie matrix_options) =
        inr created_movie /\
      flag "monitored" created_movie = true) \/
     (creating_service (requests w1) (create_request matrix_options) =
        inr created_movie /\
      flag "id" created_movie = true)).
Proof.
  assert (H : (addMovie creating_service matrix_options fresh_world).1 =
              inr created_movie) by (vm_compute; reflexivity).
  exact (conj H (addMovie_success_cases creating_service matrix_options
                   fresh_world created_movie H)).
Defined.

Lemma addMovie_rejected_write_is_logged_witness :
  flag "downloaded" catalogue_entry = false /\
  conflicting_service [lookup_request 603] (create_request matrix_options) =
    inl conflict_error /\
  (addMovie conflicting_service matrix_options fresh_world).1 = inl failed_to_add /\
  last (logs (addMovie conflicting_service matrix_options fresh_world).2) =
    Some (mkLog LError
      "Failed to add movie to Radarr. This might happen if the movie already exists, in which case you can safely ignore this error."
      [("label", VStr "Radarr");
       ("errorMessage", VStr "Request failed with status code 400");
       ("options", options_value matrix_options);
       ("response", VObj [("message", VStr "This movie has already been added")])]).
Proof.
  assert (H : getMovieByTmdbId conflicting_service (tmdbId matrix_options)
                fresh_world =
              (inr catalogue_entry, add_request (lookup_request 603) fresh_world))
    by (vm_compute; reflexivity).
  assert (Hno : flag "id" catalogue_entry = true ->
                flag "monitored" catalogue_entry = false) by reflexivity.
  exact (conj eq_refl (conj eq_refl
           (addMovie_rejected_write_is_logged conflicting_service matrix_options
              fresh_world _ catalogue_entry conflict_error H eq_refl eq_refl Hno))).
Defined.

Lemma getMovieByTmdbId_success_iff_witness :
  (getMovieByTmdbId creating_service 603 fresh_world).1 = inr catalogue_entry /\
  (getMovieByTmdbId failing_service 603 fresh_world).1 = inl not_found /\
  not_found = Error "Movie not found".
Proof.
  destruct (getMovieByTmdbId_success_iff creating_service 603 fresh_world)
    as [Hiff _].
  destruct (getMovieByTmdbId_success_iff failing_service 603 fresh_world)
    as [_ Herr].
  assert (H : (getMovieByTmdbId failing_service 603 fresh_world).1 =
              inl not_found) by (vm_compute; reflexivity).
  refine (conj _ (conj H (Herr not_found H))).
  apply Hiff. exists (VArr [catalogue_entry]). by vm_compute.
Defined.

Lemma getMovieByTmdbId_logs_the_cause_witness :
  logs (getMovieByTmdbId creating_service 603 fresh_world).2 = [] /\
  logs (getMovieByTmdbId failing_service 603 fresh_world).2 =
    [mkLog LError "Error retrieving movie by TMDb ID"
       [("label", VStr "Radarr API");
        ("message", VStr "Request failed with status code 500")]] /\
  logs (getMovieByTmdbId empty_service 603 fresh_world).2 =
    [mkLog LError "Error retrieving movie by TMDb ID"
       [("label", VStr "Radarr API"); ("message", VStr "Movie not found")]].
Proof.
  destruct (getMovieByTmdbId_logs_the_cause creating_service 603 fresh_world)
    as (Hok & _ & _).
  destruct (getMovieByTmdbId_logs_the_cause failing_service 603 fresh_world)
    as (_ & Hrej & _).
  destruct (getMovieByTmdbId_logs_the_cause empty_service 603 fresh_world)
    as (_ & _ & Hempty).
  refine (conj _ (conj _ _)).
  - apply (Hok catalogue_entry). by vm_compute.
  - apply (Hrej (AxiosError "Request failed with status code 500" None)).
    reflexivity.
  - apply Hempty. reflexivity.
Defined.

Lemma update_request_body_witness :
  flag "id" unmonitored_movie = true /\
  exists body,
    data (update_request unmonitored_movie matrix_options) = Some body /\
    get_field "id" body = inr (VNum 7) /\
    get_field "monitored" body = inr (VBool true) /\
    get_field "title" body = inr (VStr "The Matrix") /\
    get_field "downloaded" body = inr (VBool false).
Proof.
  split; [reflexivity |].
  destruct (update_request_body matrix_options unmonitored_movie eq_refl)
    as (body & Hbody & Hnew & Hold & Hid & Hmon).
  exists body. split_and!; [exact Hbody | exact Hid | exact Hmon | |].
  - by apply Hnew.
  - by apply Hold.
Defined.

Lemma getQueue_body_shapes_witness :
  (getQueue bare_queue_service fresh_world).1 = inr VUndefined /\
  (getQueue text_queue_service fresh_world).1 = inr VUndefined /\
  (exists msg,
      (getQueue null_queue_service fresh_world).1 =
        inl (Error ("[Radarr] Failed to retrieve queue: " +:+ msg))) /\
  (getQueue failing_service fresh_world).1 =
    inl (Error "[Radarr] Failed to retrieve queue: Request failed with status code 500").
Proof.
  destruct (getQueue_body_shapes bare_queue_service fresh_world) as (Hobj & _ & _ & _).
  destruct (getQueue_body_shapes text_queue_service fresh_world) as (_ & Hother & _ & _).
  destruct (getQueue_body_shapes null_queue_service fresh_world) as (_ & _ & Hnull & _).
  destruct (getQueue_body_shapes failing_service fresh_world) as (_ & _ & _ & Hrej).
  refine (conj _ (conj _ (conj _ _))).
  - apply (Hobj [("page", VNum 1)]). reflexivity.
  - apply (Hother (VStr "<html></html>")); [reflexivity | done | done | done].
  - apply (Hnull VNull); [reflexivity | by right].
  - apply (Hrej (AxiosError "Request failed with status code 500" None)).
    reflexivity.
Defined.


Lemma id_requests_injective_witness :
  603 <> 604 /\
  path (movie_request 603) = "/movie/603" /\
  path (movie_request 604) = "/movie/604" /\
  movie_request 603 <> movie_request 604 /\
  lookup_request 603 <> lookup_request 604.
Proof.
  assert (Hne : 603 <> 604) by lia.
  assert (H1 : - 2 ^ 53 < 603 < 2 ^ 53) by lia.
  assert (H2 : - 2 ^ 53 < 604 < 2 ^ 53) by lia.
  destruct (id_requests_injective 603 604 H1 H2 Hne) as (Hmovie & _ & Hlookup & _).
  exact (conj Hne (conj eq_refl (conj eq_refl (conj Hmovie Hlookup)))).
Defined.


Lemma addMovie_refused_write_logs_twice_witness :
  flag "downloaded" unmonitored_movie = false /\
  flag "monitored" unmonitored_movie = false /\
  (addMovie ignoring_service matrix_options fresh_world).1 =
    inl (Error "Failed to add movie to Radarr") /\
  length (logs (addMovie ignoring_service matrix_options fresh_world).2) = 2%nat.
Proof.
  assert (H : getMovieByTmdbId ignoring_service (tmdbId matrix_options) fresh_world =
              (inr unmonitored_movie, add_request (lookup_request 603) fresh_world))
    by (vm_compute; reflexivity).
  assert (Hmon : flag "id" unmonitored_movie = true ->
                 flag "monitored" unmonitored_movie = false) by reflexivity.
  destruct (addMovie_refused_write_logs_twice ignoring_service matrix_options
              fresh_world _ unmonitored_movie
              [("id", VNum 7); ("tmdbId", VNum 603);
               ("downloaded", VBool false); ("monitored", VBool false)]
              H eq_refl Hmon eq_refl eq_refl) as [Hres Hlogs].
  refine (conj eq_refl (conj eq_refl (conj Hres _))).
  rewrite Hlogs. reflexivity.
Defined.
